(** * scripts/changelog_head.py: the body of the first changelog entry

    A shallow embedding of the script, statement by statement:
    - Python 2 byte strings are lists of [ascii] characters;
    - [str.strip()] removes the six ASCII whitespace characters from both ends;
    - [re.match] is a small backtracking matcher over the fragment of the
      pattern language that the script's two patterns use;
    - the module-level loop is a fold over the lines of the file that threads
      the flag [found_first_header] and the lines printed so far, and that
      reports whether it left through [break] and which lines it never read. *)

From Stdlib Require Import Ascii String List Bool Arith Lia.
From stdpp Require Import base list sets strings.

Local Open Scope bool_scope.
Local Open Scope list_scope.

(** ** Byte strings *)

Abbreviation str := (list ascii).

Definition bytes (s : string) : str := list_ascii_of_string s.

Definition LF : ascii := ascii_of_nat 10.

(** A line as file iteration yields it: its text and the line break. *)
Definition ln (s : string) : str := bytes s ++ [LF].

(** [isspace] of the C locale: space, and tab to carriage return. *)
Definition isspace (c : ascii) : bool :=
  let n := nat_of_ascii c in
  (n =? 32) || ((9 <=? n) && (n <=? 13)).

Fixpoint lstrip (s : str) : str :=
  match s with
  | [] => []
  | c :: t => if isspace c then lstrip t else s
  end.

Definition rstrip (s : str) : str := reverse (lstrip (reverse s)).

(** [line.strip()] *)
Definition strip (s : str) : str := rstrip (lstrip s).

(** ** File iteration: [for line in open("CHANGELOG.md")]

    The file's content is cut after every line break; each line keeps its
    line break, and a last line without one is yielded as it is. *)

Fixpoint readlines_from (cur : str) (content : str) : list str :=
  match content with
  | [] => match cur with [] => [] | _ => [reverse cur] end
  | c :: t =>
      if Ascii.eqb c LF then reverse (c :: cur) :: readlines_from [] t
      else readlines_from (c :: cur) t
  end.

Definition readlines (content : str) : list str := readlines_from [] content.

(** ** Regular expressions: the fragment used by the script *)

Inductive regex : Type :=
| Bol                      (* ^ *)
| Eol                      (* $ *)
| Chr (c : ascii)          (* a literal character, escaped or not *)
| Dot                      (* . : any character but a line break *)
| Seq (r1 r2 : regex)
| Star (r : regex)         (* r* *)
| Plus (r : regex).        (* r+ *)

(** [$] without MULTILINE: at the end, or before a line break that ends the
    string. *)
Definition at_end (s : str) : bool :=
  match s with
  | [] => true
  | [c] => Ascii.eqb c LF
  | _ => false
  end.

(** Repetition of a matcher [m], longest first, then the continuation; an
    iteration that consumes nothing is not repeated. *)
Fixpoint repeat_from (m : nat -> str -> (nat -> str -> bool) -> bool)
    (k : nat -> str -> bool) (fuel pos : nat) (s : str) : bool :=
  match fuel with
  | 0 => k pos s
  | S f =>
      m pos s (fun p t => (length t <? length s) && repeat_from m k f p t)
      || k pos s
  end.

(** [rmatch r pos s k]: [r] matches a prefix of [s], which starts at offset
    [pos] of the subject, and [k] accepts the offset and the rest. *)
Fixpoint rmatch (r : regex) (pos : nat) (s : str)
    (k : nat -> str -> bool) {struct r} : bool :=
  match r with
  | Bol => (pos =? 0) && k pos s
  | Eol => at_end s && k pos s
  | Chr c =>
      match s with
      | a :: t => Ascii.eqb a c && k (S pos) t
      | [] => false
      end
  | Dot =>
      match s with
      | a :: t => negb (Ascii.eqb a LF) && k (S pos) t
      | [] => false
      end
  | Seq r1 r2 => rmatch r1 pos s (fun p t => rmatch r2 p t k)
  | Star r' => repeat_from (rmatch r') k (length s) pos s
  | Plus r' =>
      rmatch r' pos s (fun p t => repeat_from (rmatch r') k (length t) p t)
  end.

(** [re.match(r, s)], used for its truth value only: a match that starts at
    offset 0 and may end anywhere. *)
Definition re_match (r : regex) (s : str) : bool :=
  rmatch r 0 s (fun _ _ => true).

(** The characters of [p] one after the other, then [r]. *)
Fixpoint lit (p : str) (r : regex) : regex :=
  match p with
  | [] => r
  | c :: t => Seq (Chr c) (lit t r)
  end.

Definition header_prefix : str := bytes "Changes in [".

Definition rbracket : ascii := Ascii.ascii_of_nat 93.

Definition equals : ascii := Ascii.ascii_of_nat 61.

(** r"^Changes in \[.*\]" *)
Definition header_re : regex :=
  Seq Bol (lit header_prefix (Seq (Star Dot) (Chr rbracket))).

(** r"^=+$" *)
Definition separator_re : regex :=
  Seq Bol (Seq (Plus (Chr equals)) Eol).

(** ** The scan *)

Record state : Type := mkState {
  found_first_header : bool;
  stdout : list str
}.

Inductive flow : Type := Next | Break.

(** The body of the [for] loop, lines 11 to 17, for one line of the file. *)
Definition loop_body (st : state) (raw : str) : flow * state :=
  let line := strip raw in
  if re_match header_re line then
    if found_first_header st then (Break, st)
    else (Next, mkState true (stdout st))
  else if negb (re_match separator_re line) && (0 <? length line) then
    (Next, mkState (found_first_header st) (stdout st ++ [line]))
  else (Next, st).

Record result : Type := mkResult {
  final : state;
  unread : list str;
  broke : bool
}.

(** The [for] loop, lines 10 to 17. *)
Fixpoint for_loop (st : state) (lines : list str) : result :=
  match lines with
  | [] => mkResult st [] false
  | raw :: rest =>
      match loop_body st raw with
      | (Break, st') => mkResult st' rest true
      | (Next, st') => for_loop st' rest
      end
  end.

(** The module body, lines 9 to 17, run in a namespace [st] that may hold a
    value of the flag from an earlier execution. *)
Definition script (st : state) (lines : list str) : result :=
  for_loop (mkState false (stdout st)) lines.

Definition fresh : state := mkState false [].

(** What one run prints. *)
Definition output (lines : list str) : list str :=
  stdout (final (script fresh lines)).

(** The script on the content of CHANGELOG.md. *)
Definition changelog_head (content : str) : list str :=
  output (readlines content).

(** A line has no line break but, possibly, its last character. *)
Definition is_line (raw : str) : Prop :=
  forall a b, raw = a ++ LF :: b -> b = [].

(** ** Vocabulary of the statements *)

(** [m] matches exactly one character, of the class [p]. *)
Definition one_of (p : ascii -> bool)
    (m : nat -> str -> (nat -> str -> bool) -> bool) : Prop :=
  forall pos s k,
    m pos s k = match s with a :: t => p a && k (S pos) t | [] => false end.

(** The condition of line 12, on a raw line. *)
Definition is_header (raw : str) : bool := re_match header_re (strip raw).

(** The line reaches [print]: the conditions of lines 12 and 16. *)
Definition is_printed (raw : str) : bool :=
  negb (re_match header_re (strip raw))
  && (negb (re_match separator_re (strip raw)) && (0 <? length (strip raw))).

(** The lines before the first header line; all of them when there is none. *)
Fixpoint before_header (lines : list str) : list str :=
  match lines with
  | [] => []
  | raw :: rest => if is_header raw then [] else raw :: before_header rest
  end.

(** The lines after the first header line; none when there is no header. *)
Fixpoint after_header (lines : list str) : list str :=
  match lines with
  | [] => []
  | raw :: rest => if is_header raw then rest else after_header rest
  end.

(** The lines of [lines] that reach [print], stripped, in their order. *)
Definition body_of (lines : list str) : list str :=
  map strip (List.filter is_printed lines).

(** The body of the first entry in the words of the specification: the
    non-blank, non-separator lines strictly between the first header line
    and the second one, or the end of the input, stripped, in their order. *)
Definition first_entry_body (lines : list str) : list str :=
  body_of (before_header (after_header lines)).

(** A stripped line that the specification calls blank or a separator. *)
Definition blank_or_separator (line : str) : Prop :=
  line = [] \/ exists n, line = replicate (S n) equals.

(** Neither the first nor the last character of [core] is whitespace. *)
Definition tight (core : str) : Prop :=
  (forall c t, core = c :: t -> isspace c = false)
  /\ (forall t c, core = t ++ [c] -> isspace c = false).

(** A line with its line break: text without a line break, then one. *)
Definition terminated (raw : str) : Prop :=
  exists text, raw = text ++ [LF] /\ LF ∉ text.

(** ** Concrete runs *)

Example scenario_A :
  changelog_head
    (ln "Changes in [1.2.0]" ++ ln "====================" ++
     ln "Added feature X." ++ ln "Fixed bug Y." ++ ln "" ++
     ln "Changes in [1.1.0]" ++ ln "====================" ++
     ln "Older stuff.")
  = [bytes "Added feature X."; bytes "Fixed bug Y."].
Proof. vm_compute. reflexivity. Qed.

Example scenario_C :
  changelog_head
    (ln "Changes in [2.0.0]" ++ ln "Changes in [1.9.0]" ++
     ln "Body for old version.")
  = [].
Proof. vm_compute. reflexivity. Qed.

(** Leading and trailing blanks and tabs go, blanks inside stay. *)
Example strip_blanks :
  strip (ascii_of_nat 9 :: bytes "  a b  " ++ [ascii_of_nat 13; LF])
  = bytes "a b".
Proof. vm_compute. reflexivity. Qed.

(** ** Stripping *)

Section Strip.

Implicit Types (s t : str) (c : ascii).

Lemma lstrip_split s :
  exists ws, s = ws ++ lstrip s /\ Forall (fun c => isspace c = true) ws.
Proof.
  induction s as [|c t [ws [Heq Hws]]]; simpl.
  - exists []. split; [reflexivity | constructor].
  - destruct (isspace c) eqn:Hc.
    + exists (c :: ws). split; [simpl; congruence | constructor; assumption].
    + exists []. split; [reflexivity | constructor].
Qed.

Lemma lstrip_head s c t : lstrip s = c :: t -> isspace c = false.
Proof.
  induction s as [|a s IH]; simpl; [discriminate|].
  destruct (isspace a) eqn:Ha; [exact IH|].
  intros [= -> _]. exact Ha.
Qed.

Lemma rstrip_split s :
  exists ws, s = rstrip s ++ ws /\ Forall (fun c => isspace c = true) ws.
Proof.
  unfold rstrip. destruct (lstrip_split (reverse s)) as [ws [Heq Hws]].
  exists (reverse ws). split.
  - rewrite <- reverse_app, <- Heq, reverse_involutive. reflexivity.
  - apply Forall_reverse. exact Hws.
Qed.

Lemma rstrip_last s t c : rstrip s = t ++ [c] -> isspace c = false.
Proof.
  unfold rstrip. intros H.
  apply (f_equal reverse) in H.
  rewrite reverse_involutive, reverse_app in H. simpl in H.
  eapply lstrip_head. exact H.
Qed.

(** The stripped line sits inside the raw one, between two runs of
    whitespace. *)
Lemma strip_split s :
  exists ws1 ws2, s = ws1 ++ strip s ++ ws2
    /\ Forall (fun c => isspace c = true) ws1
    /\ Forall (fun c => isspace c = true) ws2.
Proof.
  unfold strip.
  destruct (lstrip_split s) as [ws1 [H1 Hws1]].
  destruct (rstrip_split (lstrip s)) as [ws2 [H2 Hws2]].
  exists ws1, ws2. repeat split; try assumption.
  rewrite <- H2. exact H1.
Qed.

Lemma strip_last s t c : strip s = t ++ [c] -> isspace c = false.
Proof. unfold strip. apply rstrip_last. Qed.

Lemma strip_sublist s : strip s `sublist_of` s.
Proof.
  destruct (strip_split s) as [ws1 [ws2 [Heq _]]].
  rewrite Heq at 2.
  apply sublist_inserts_l, sublist_inserts_r. reflexivity.
Qed.

Lemma strip_line_no_LF raw : is_line raw -> LF ∉ strip raw.
Proof.
  intros Hline Hin.
  apply list_elem_of_split in Hin as [a [b Hab]].
  destruct (strip_split raw) as [ws1 [ws2 [Heq _]]].
  rewrite Hab in Heq.
  assert (Hb : b ++ ws2 = []).
  { apply (Hline (ws1 ++ a)). rewrite Heq, <- !app_assoc. reflexivity. }
  apply app_eq_nil in Hb as [-> _].
  apply strip_last in Hab. vm_compute in Hab. discriminate.
Qed.

End Strip.

(** ** Lines of a file *)

Lemma readlines_from_is_line content : forall cur raw,
  LF ∉ cur -> raw ∈ readlines_from cur content -> is_line raw.
Proof.
  induction content as [|c t IH]; intros cur raw Hcur Hin; simpl in Hin.
  - destruct cur as [|x cur']; [inversion Hin|].
    apply list_elem_of_singleton in Hin. subst raw.
    intros a b Hab. exfalso. apply Hcur.
    apply elem_of_reverse. rewrite Hab. set_solver.
  - destruct (Ascii.eqb c LF) eqn:Hc.
    + apply Ascii.eqb_eq in Hc. subst c.
      apply elem_of_cons in Hin as [-> | Hin].
      * intros a b Hab. rewrite reverse_cons in Hab.
        destruct b as [|y b] using rev_ind; [reflexivity|].
        exfalso. apply Hcur.
        change (LF :: b ++ [y]) with ((LF :: b) ++ [y]) in Hab.
        rewrite app_assoc in Hab. apply app_inj_tail in Hab as [Hab _].
        apply elem_of_reverse. rewrite Hab. set_solver.
      * eapply IH; [|exact Hin]. apply not_elem_of_nil.
    + apply Ascii.eqb_neq in Hc.
      eapply IH; [|exact Hin].
      apply not_elem_of_cons. split; [congruence | assumption].
Qed.

Lemma readlines_is_line content raw : raw ∈ readlines content -> is_line raw.
Proof. apply readlines_from_is_line. apply not_elem_of_nil. Qed.

(** ** The two patterns *)

Section Regex.

Implicit Types (s t : str) (k : nat -> str -> bool).

(** The hypothesis [H] is the goal up to arithmetic on the offset. *)
Ltac same_offset H := rewrite <- H; f_equal; simpl; lia.

Lemma one_of_Chr c : one_of (fun a => Ascii.eqb a c) (rmatch (Chr c)).
Proof. intros pos s k. reflexivity. Qed.

Lemma one_of_Dot : one_of (fun a => negb (Ascii.eqb a LF)) (rmatch Dot).
Proof. intros pos s k. reflexivity. Qed.

(** Repeating a one-character matcher: some run of characters of the class
    is consumed and the continuation accepts what follows. *)
Lemma repeat_from_class p m k (Hm : one_of p m) : forall fuel pos s,
  length s <= fuel ->
  repeat_from m k fuel pos s = true <->
  exists a t, s = a ++ t /\ Forall (fun c => p c = true) a
    /\ k (pos + length a) t = true.
Proof.
  induction fuel as [|fuel IH]; intros pos s Hlen; simpl.
  - destruct s; [|simpl in Hlen; lia]. split.
    + intros Hk. exists [], []. simpl. rewrite Nat.add_0_r. auto.
    + intros (a & t & Heq & _ & Hk).
      symmetry in Heq. apply app_eq_nil in Heq as [-> ->].
      simpl in Hk. rewrite Nat.add_0_r in Hk. exact Hk.
  - rewrite Hm. destruct s as [|c s']; simpl.
    + split.
      * intros Hk. exists [], []. simpl. rewrite Nat.add_0_r. auto.
      * intros (a & t & Heq & _ & Hk).
        symmetry in Heq. apply app_eq_nil in Heq as [-> ->].
        simpl in Hk. rewrite Nat.add_0_r in Hk. exact Hk.
    + simpl in Hlen.
      assert (Hlt : (length s' <? S (length s')) = true)
        by (apply Nat.ltb_lt; lia).
      rewrite Hlt. simpl. rewrite orb_true_iff, andb_true_iff.
      rewrite (IH (S pos) s') by lia. split.
      * intros [[Hp (a & t & -> & Ha & Hk)] | Hk].
        -- exists (c :: a), t. simpl. repeat split.
           ++ constructor; assumption.
           ++ same_offset Hk.
        -- exists [], (c :: s'). simpl. rewrite Nat.add_0_r. auto.
      * intros (a & t & Heq & Ha & Hk). destruct a as [|x a]; simpl in *.
        -- right. subst t. rewrite Nat.add_0_r in Hk. exact Hk.
        -- injection Heq as -> ->. left. inversion Ha; subst. split; [assumption|].
           exists a, t. repeat split; [assumption|]. same_offset Hk.
Qed.

Lemma rmatch_lit p r : forall pos s k,
  rmatch (lit p r) pos s k = true <->
  exists t, s = p ++ t /\ rmatch r (pos + length p) t k = true.
Proof.
  induction p as [|c p IH]; intros pos s k; simpl.
  - rewrite Nat.add_0_r. split; [eauto|]. intros (t & -> & H). exact H.
  - destruct s as [|a s']; simpl.
    + split; [discriminate|]. intros (t & Heq & _). discriminate.
    + rewrite andb_true_iff, Ascii.eqb_eq, IH. split.
      * intros (-> & t & -> & H). exists t. split; [reflexivity|].
        same_offset H.
      * intros (t & [= -> ->] & H). split; [reflexivity|].
        exists t. split; [reflexivity|]. same_offset H.
Qed.

Lemma rmatch_Bol r s k : rmatch (Seq Bol r) 0 s k = rmatch r 0 s k.
Proof. reflexivity. Qed.

Lemma rmatch_Star_Seq r1 r2 pos s k :
  rmatch (Seq (Star r1) r2) pos s k
  = repeat_from (rmatch r1) (fun p t => rmatch r2 p t k) (length s) pos s.
Proof. reflexivity. Qed.

Lemma Forall_not_LF (a : str) :
  Forall (fun c => negb (Ascii.eqb c LF) = true) a <-> LF ∉ a.
Proof.
  rewrite Forall_forall. split.
  - intros H Hin. specialize (H _ Hin).
    rewrite Ascii.eqb_refl in H. discriminate.
  - intros H c Hc. apply negb_true_iff, Ascii.eqb_neq. intros ->. auto.
Qed.

Lemma Forall_equals (a : str) :
  Forall (fun c => Ascii.eqb c equals = true) a <->
  a = replicate (length a) equals.
Proof.
  induction a as [|c a IH]; simpl.
  - split; [reflexivity | constructor].
  - rewrite Forall_cons, IH, Ascii.eqb_eq. split.
    + intros [-> H]. f_equal. exact H.
    + intros [= -> H]. split; [reflexivity | exact H].
Qed.

(** What r"^Changes in \[.*\]" matches: the prefix, then characters other
    than a line break, then a closing bracket; anything may follow. *)
Lemma header_match_iff s :
  re_match header_re s = true <->
  exists text rest,
    s = header_prefix ++ text ++ rbracket :: rest /\ LF ∉ text.
Proof.
  unfold re_match, header_re. rewrite rmatch_Bol, rmatch_lit.
  setoid_rewrite rmatch_Star_Seq. split.
  - intros (t & -> & H).
    apply (repeat_from_class _ _ _ one_of_Dot) in H; [|lia].
    destruct H as (a & t' & -> & Ha & Hk).
    destruct t' as [|x rest]; [discriminate|].
    simpl in Hk. rewrite andb_true_r in Hk. apply Ascii.eqb_eq in Hk. subst x.
    exists a, rest. split; [reflexivity|]. apply Forall_not_LF. exact Ha.
  - intros (text & rest & -> & Htext).
    exists (text ++ rbracket :: rest). split; [reflexivity|].
    apply (repeat_from_class _ _ _ one_of_Dot); [lia|].
    exists text, (rbracket :: rest). repeat split.
    apply Forall_not_LF. exact Htext.
Qed.

(** What r"^=+$" matches: one or more [=], then the end or a last line
    break. *)
Lemma separator_match_iff s :
  re_match separator_re s = true <->
  exists n, s = replicate (S n) equals
         \/ s = replicate (S n) equals ++ [LF].
Proof.
  unfold re_match, separator_re. simpl. split.
  - destruct s as [|c t]; [discriminate|].
    rewrite andb_true_iff, Ascii.eqb_eq. intros [-> H].
    apply (repeat_from_class _ _ _ (one_of_Chr equals)) in H; [|lia].
    destruct H as (a & t' & -> & Ha & Hk).
    apply Forall_equals in Ha. exists (length a).
    rewrite andb_true_r in Hk. simpl.
    destruct t' as [|x [|y t'']]; simpl in Hk; try discriminate.
    + left. rewrite app_nil_r. f_equal. exact Ha.
    + right. apply Ascii.eqb_eq in Hk. subst x. f_equal. f_equal. exact Ha.
  - intros [n [-> | ->]]; simpl.
    + apply (repeat_from_class _ _ _ (one_of_Chr equals)); [lia|].
      exists (replicate n equals), []. rewrite app_nil_r. repeat split.
      apply Forall_equals. rewrite length_replicate. reflexivity.
    + apply (repeat_from_class _ _ _ (one_of_Chr equals)); [lia|].
      exists (replicate n equals), [LF]. repeat split.
      apply Forall_equals. rewrite length_replicate. reflexivity.
Qed.

(** On a stripped line the last line break is gone, and the separator
    pattern matches the runs of [=] only. *)
Lemma separator_strip_iff raw :
  re_match separator_re (strip raw) = true <->
  exists n, strip raw = replicate (S n) equals.
Proof.
  rewrite separator_match_iff. split.
  - intros [n [H | H]]; [eauto|].
    apply strip_last in H. vm_compute in H. discriminate.
  - intros [n H]. eauto.
Qed.

End Regex.

(** ** One iteration *)

Section LoopBody.

Implicit Types (st : state) (raw : str).

Lemma loop_body_header_first st raw :
  is_header raw = true -> found_first_header st = false ->
  loop_body st raw = (Next, mkState true (stdout st)).
Proof.
  unfold loop_body, is_header. intros -> ->. reflexivity.
Qed.

Lemma loop_body_header_again st raw :
  is_header raw = true -> found_first_header st = true ->
  loop_body st raw = (Break, st).
Proof.
  unfold loop_body, is_header. intros -> ->. reflexivity.
Qed.

(** A line that is not a header is printed or not whatever the flag says,
    and leaves the flag as it is. *)
Lemma loop_body_other st raw :
  is_header raw = false ->
  loop_body st raw
  = (Next, mkState (found_first_header st)
             (stdout st ++ body_of [raw])).
Proof.
  unfold loop_body, is_header, body_of. cbn [List.filter].
  unfold is_printed. cbv zeta. intros ->. cbn [negb andb].
  destruct (negb (re_match separator_re (strip raw))
            && (0 <? length (strip raw))); simpl.
  - reflexivity.
  - rewrite app_nil_r. destruct st; reflexivity.
Qed.

Lemma is_printed_not_header raw : is_printed raw = true -> is_header raw = false.
Proof.
  unfold is_printed, is_header. intros H.
  apply andb_true_iff in H as [H _]. apply negb_true_iff. exact H.
Qed.

Lemma is_printed_not_blank raw :
  is_printed raw = true -> ~ blank_or_separator (strip raw).
Proof.
  unfold is_printed. intros H.
  apply andb_true_iff in H as [_ H]. apply andb_true_iff in H as [Hs Hl].
  apply negb_true_iff in Hs. apply Nat.ltb_lt in Hl.
  intros [Hnil | Hsep].
  - rewrite Hnil in Hl. simpl in Hl. lia.
  - apply separator_strip_iff in Hsep. congruence.
Qed.

End LoopBody.

(** ** The whole loop *)

Section ForLoop.

Implicit Types (st : state) (lines : list str).

Lemma body_of_cons raw lines :
  body_of (raw :: lines) = body_of [raw] ++ body_of lines.
Proof. unfold body_of. simpl. destruct (is_printed raw); reflexivity. Qed.

Lemma body_of_app l1 l2 : body_of (l1 ++ l2) = body_of l1 ++ body_of l2.
Proof. unfold body_of. rewrite List.filter_app, map_app. reflexivity. Qed.

Lemma elem_of_body_of line lines :
  line ∈ body_of lines <->
  exists raw, raw ∈ lines /\ is_printed raw = true /\ line = strip raw.
Proof.
  unfold body_of. rewrite list_elem_of_In, in_map_iff. split.
  - intros (raw & <- & Hin). apply List.filter_In in Hin as [Hin Hp].
    exists raw. rewrite list_elem_of_In. auto.
  - intros (raw & Hin & Hp & ->). exists raw. split; [reflexivity|].
    apply List.filter_In. rewrite <- list_elem_of_In. auto.
Qed.

Lemma body_of_sublist lines : body_of lines `sublist_of` map strip lines.
Proof.
  induction lines as [|raw lines IH]; [constructor|].
  unfold body_of in *. simpl. destruct (is_printed raw); simpl.
  - apply sublist_skip. exact IH.
  - apply sublist_cons. exact IH.
Qed.

(** The input is its lines before the first header, that header, and the
    lines after it. *)
Lemma header_split lines :
  existsb is_header lines = true ->
  exists raw, is_header raw = true
    /\ lines = before_header lines ++ raw :: after_header lines.
Proof.
  induction lines as [|raw lines IH]; simpl; [discriminate|].
  destruct (is_header raw) eqn:Hh; simpl.
  - intros _. exists raw. auto.
  - intros H. destruct (IH H) as (h & Hhh & Heq).
    exists h. split; [assumption|]. f_equal. exact Heq.
Qed.

Lemma no_header_split lines :
  existsb is_header lines = false ->
  before_header lines = lines /\ after_header lines = [].
Proof.
  induction lines as [|raw lines IH]; simpl; [auto|].
  destruct (is_header raw) eqn:Hh; simpl; [discriminate|].
  intros H. destruct (IH H) as [-> ->]. auto.
Qed.

Lemma before_header_no_header lines :
  existsb is_header (before_header lines) = false.
Proof.
  induction lines as [|raw lines IH]; simpl; [reflexivity|].
  destruct (is_header raw) eqn:Hh; simpl; [reflexivity|].
  rewrite Hh. exact IH.
Qed.

(** Once the flag is set, the loop prints up to the next header and leaves
    there, with everything behind that header unread. *)
Lemma for_loop_found st lines :
  found_first_header st = true ->
  for_loop st lines
  = mkResult (mkState true (stdout st ++ body_of (before_header lines)))
      (after_header lines) (existsb is_header lines).
Proof.
  revert st. induction lines as [|raw lines IH]; intros st Hf; simpl.
  - unfold body_of. simpl. rewrite app_nil_r. destruct st; simpl in *.
    subst. reflexivity.
  - destruct (is_header raw) eqn:Hh; simpl.
    + rewrite loop_body_header_again by assumption.
      unfold body_of. simpl. rewrite app_nil_r. destruct st; simpl in *.
      subst. reflexivity.
    + rewrite loop_body_other by assumption.
      rewrite IH by (simpl; assumption). simpl.
      rewrite (body_of_cons raw (before_header lines)), app_assoc.
      reflexivity.
Qed.

(** Before the first header the loop prints as well. *)
Lemma for_loop_not_found st lines :
  found_first_header st = false ->
  for_loop st lines
  = if existsb is_header lines
    then for_loop (mkState true (stdout st ++ body_of (before_header lines)))
           (after_header lines)
    else mkResult (mkState false (stdout st ++ body_of lines)) [] false.
Proof.
  revert st. induction lines as [|raw lines IH]; intros st Hf; simpl.
  - unfold body_of. simpl. rewrite app_nil_r. destruct st; simpl in *.
    subst. reflexivity.
  - destruct (is_header raw) eqn:Hh; simpl.
    + rewrite loop_body_header_first by assumption.
      unfold body_of. simpl. rewrite app_nil_r. reflexivity.
    + rewrite loop_body_other by assumption.
      rewrite IH by (simpl; assumption). simpl.
      rewrite (body_of_cons raw (before_header lines)).
      rewrite (body_of_cons raw lines), !app_assoc. reflexivity.
Qed.

(** What the script prints: the printable lines before the first header,
    then the body of the first entry. *)
Lemma output_eq lines :
  output lines = body_of (before_header lines) ++ first_entry_body lines.
Proof.
  unfold output, script, first_entry_body.
  rewrite for_loop_not_found by reflexivity. simpl.
  destruct (existsb is_header lines) eqn:Hex.
  - rewrite for_loop_found by reflexivity. simpl. reflexivity.
  - destruct (no_header_split lines Hex) as [-> ->].
    simpl. unfold body_of at 2. simpl. rewrite app_nil_r. reflexivity.
Qed.

(** With nothing printable before the first header, the output is the body
    of the first entry. *)
Lemma output_without_preamble lines :
  body_of (before_header lines) = [] -> output lines = first_entry_body lines.
Proof. intros H. rewrite output_eq, H. reflexivity. Qed.

End ForLoop.

(** ** Headers among the lines of a file *)

Lemma is_header_line_iff raw :
  is_line raw ->
  (is_header raw = true <->
   exists text rest, strip raw = header_prefix ++ text ++ rbracket :: rest).
Proof.
  intros Hline. unfold is_header. rewrite header_match_iff. split.
  - intros (text & rest & Heq & _). eauto.
  - intros (text & rest & Heq). exists text, rest. split; [assumption|].
    pose proof (strip_line_no_LF raw Hline) as Hno.
    intros Hin. apply Hno. rewrite Heq.
    apply elem_of_app. right. apply elem_of_app. left. exact Hin.
Qed.

Lemma loop_body_break st raw st' :
  loop_body st raw = (Break, st') ->
  is_header raw = true /\ found_first_header st = true /\ st' = st.
Proof.
  unfold loop_body, is_header. cbv zeta.
  destruct (re_match header_re (strip raw)).
  - destruct (found_first_header st); [|discriminate].
    intros [= <-]. auto.
  - destruct (negb (re_match separator_re (strip raw))
              && (0 <? length (strip raw))); discriminate.
Qed.

(** A loop that did not leave through [break] goes on with the next lines
    from the state it reached. *)
Lemma for_loop_app st pre rest :
  broke (for_loop st pre) = false ->
  for_loop st (pre ++ rest) = for_loop (final (for_loop st pre)) rest.
Proof.
  revert st. induction pre as [|raw pre IH]; intros st; simpl; [reflexivity|].
  destruct (loop_body st raw) as [[|] st']; simpl; [apply IH | discriminate].
Qed.

(** The loop only ever appends to what is printed, and what it appends is
    a subsequence of the stripped lines. *)
Lemma for_loop_appends st lines :
  exists new, stdout (final (for_loop st lines)) = stdout st ++ new
    /\ new `sublist_of` map strip lines.
Proof.
  revert st. induction lines as [|raw lines IH]; intros st; simpl.
  - exists []. rewrite app_nil_r. split; [reflexivity | constructor].
  - destruct (is_header raw) eqn:Hh.
    + destruct (found_first_header st) eqn:Hf.
      * rewrite loop_body_header_again by assumption. simpl.
        exists []. rewrite app_nil_r. split; [reflexivity|].
        apply sublist_nil_l.
      * rewrite loop_body_header_first by assumption.
        destruct (IH (mkState true (stdout st))) as (new & Heq & Hsub).
        exists new. split; [exact Heq|]. apply sublist_cons. exact Hsub.
    + rewrite loop_body_other by assumption.
      destruct (IH (mkState (found_first_header st)
                      (stdout st ++ body_of [raw]))) as (new & Heq & Hsub).
      exists (body_of [raw] ++ new). split.
      * rewrite Heq. simpl. rewrite app_assoc. reflexivity.
      * apply (sublist_app _ [strip raw]); [|exact Hsub].
        apply (body_of_sublist [raw]).
Qed.

(** What a run appends to the standard output is [output] of its lines,
    whatever the namespace held. *)
Lemma script_appends_output st lines :
  stdout (final (script st lines)) = stdout st ++ output lines.
Proof.
  rewrite output_eq. unfold script, first_entry_body.
  rewrite for_loop_not_found by reflexivity. simpl.
  destruct (existsb is_header lines) eqn:Hex.
  - rewrite for_loop_found by reflexivity. simpl.
    rewrite app_assoc. reflexivity.
  - destruct (no_header_split lines Hex) as [-> ->].
    simpl. unfold body_of at 3. simpl. rewrite app_nil_r. reflexivity.
Qed.

(** ** The statements of the specification *)

Section Claims.

Implicit Types (st : state) (lines : list str) (raw line : str).

(** C1, as the code has it: a line before the first header is printed.
    On the three lines [Release notes], [Changes in [1.0]], [Fixed bug Y.]
    the first line is scanned with [found_first_header] false, passes the
    test of line 16, which does not read the flag, and is printed; the run
    prints [Release notes] and [Fixed bug Y.], while the body of the first
    entry is [Fixed bug Y.] alone. *)
Lemma preamble_line_is_printed :
  let lines := [ln "Release notes"; ln "Changes in [1.0]"; ln "Fixed bug Y."] in
  readlines (ln "Release notes" ++ ln "Changes in [1.0]" ++ ln "Fixed bug Y.")
  = lines
  /\ before_header lines = [ln "Release notes"]
  /\ loop_body fresh (ln "Release notes")
     = (Next, mkState false [bytes "Release notes"])
  /\ output lines = [bytes "Release notes"; bytes "Fixed bug Y."]
  /\ first_entry_body lines = [bytes "Fixed bug Y."].
Proof. vm_compute. repeat split. Qed.

(** C2, as stated, fails: the stripped line [Changes in [1.2.0] begins with
    the prefix and is not recognised as a header, for want of a closing
    bracket. *)
Lemma prefix_alone_is_no_header :
  ~ (is_header (ln "Changes in [1.2.0") = true
     <-> header_prefix `prefix_of` strip (ln "Changes in [1.2.0")).
Proof.
  intros [_ H].
  assert (Hp : header_prefix `prefix_of` strip (ln "Changes in [1.2.0")).
  { exists (bytes "1.2.0"). vm_compute. reflexivity. }
  specialize (H Hp). vm_compute in H. discriminate.
Qed.

(** C2, amended: a line of the file is recognised as an entry header exactly
    when, stripped of leading and trailing whitespace, it begins with
    [Changes in [] and has a closing bracket somewhere after that prefix;
    what follows the closing bracket is not examined. *)
Theorem header_iff_prefix_and_closing_bracket content raw :
  raw ∈ readlines content ->
  (is_header raw = true <->
   exists text rest, strip raw = header_prefix ++ text ++ rbracket :: rest).
Proof.
  intros Hin. apply is_header_line_iff. eapply readlines_is_line. exact Hin.
Qed.

Lemma header_iff_prefix_and_closing_bracket_witness :
  ln "Changes in [1.2.0] (2019-01-01)"
    ∈ readlines (ln "Intro" ++ ln "Changes in [1.2.0] (2019-01-01)")
  /\ (is_header (ln "Changes in [1.2.0] (2019-01-01)") = true <->
      exists text rest,
        strip (ln "Changes in [1.2.0] (2019-01-01)")
        = header_prefix ++ text ++ rbracket :: rest).
Proof.
  assert (Hin : ln "Changes in [1.2.0] (2019-01-01)"
    ∈ readlines (ln "Intro" ++ ln "Changes in [1.2.0] (2019-01-01)")).
  { vm_compute. apply list_elem_of_further, list_elem_of_here. }
  split; [exact Hin|].
  exact (header_iff_prefix_and_closing_bracket _ _ Hin).
Defined.

(** C3, as the code has it: with two headers and a line before the first
    one, the output is not the lines between the two headers. On [Intro],
    [Changes in [2.0]], [new], [Changes in [1.0]], [old] the run prints
    [Intro] and [new]; the lines strictly between the two headers are [new]
    alone. Nothing at or after the second header is printed. *)
Lemma two_headers_with_preamble :
  let lines := [ln "Intro"; ln "Changes in [2.0]"; ln "new";
                ln "Changes in [1.0]"; ln "old"] in
  readlines (ln "Intro" ++ ln "Changes in [2.0]" ++ ln "new" ++
             ln "Changes in [1.0]" ++ ln "old") = lines
  /\ List.filter is_header lines = [ln "Changes in [2.0]"; ln "Changes in [1.0]"]
  /\ output lines = [bytes "Intro"; bytes "new"]
  /\ first_entry_body lines = [bytes "new"].
Proof. vm_compute. repeat split. Qed.

(** C4, as the code has it: with one header and a line before it, the
    output is not the lines after the header. On [Intro],
    [Changes in [2.0]], [new] the run prints [Intro] and [new]; the lines
    strictly after the header are [new] alone. The loop ends at the end of
    the input, without [break]. *)
Lemma one_header_with_preamble :
  let lines := [ln "Intro"; ln "Changes in [2.0]"; ln "new"] in
  readlines (ln "Intro" ++ ln "Changes in [2.0]" ++ ln "new") = lines
  /\ List.filter is_header lines = [ln "Changes in [2.0]"]
  /\ output lines = [bytes "Intro"; bytes "new"]
  /\ first_entry_body lines = [bytes "new"]
  /\ broke (script fresh lines) = false.
Proof. vm_compute. repeat split. Qed.

(** C5, as the code has it: without any header the output is not empty. On
    the two lines [Random text], [More text] the run prints both. On the
    empty input it prints nothing. *)
Lemma no_header_prints_everything :
  let lines := [ln "Random text"; ln "More text"] in
  readlines (ln "Random text" ++ ln "More text") = lines
  /\ List.filter is_header lines = []
  /\ output lines = [bytes "Random text"; bytes "More text"]
  /\ first_entry_body lines = []
  /\ output [] = [].
Proof. vm_compute. repeat split. Qed.

(** C6: a line that is empty after stripping, or that after stripping is
    one or more [=] and nothing else, is never printed: scanning it leaves
    the standard output as it is whatever the state, the flag included, and
    its stripped form is no line of the output of any run. *)
Theorem blank_and_separator_never_printed st lines raw :
  blank_or_separator (strip raw) ->
  stdout (snd (loop_body st raw)) = stdout st
  /\ strip raw ∉ output lines.
Proof.
  intros Hblank. split.
  - destruct (is_header raw) eqn:Hh.
    + destruct (found_first_header st) eqn:Hf.
      * rewrite loop_body_header_again by assumption. reflexivity.
      * rewrite loop_body_header_first by assumption. reflexivity.
    + rewrite loop_body_other by assumption. simpl.
      unfold body_of. simpl. destruct (is_printed raw) eqn:Hp.
      * exfalso. exact (is_printed_not_blank raw Hp Hblank).
      * simpl. apply app_nil_r.
  - rewrite output_eq. unfold first_entry_body. rewrite <- body_of_app.
    intros Hin. apply elem_of_body_of in Hin as (raw' & _ & Hp & Heq).
    apply (is_printed_not_blank raw' Hp). rewrite <- Heq. exact Hblank.
Qed.

Lemma blank_and_separator_never_printed_witness :
  blank_or_separator (strip (ln "  ====  "))
  /\ stdout (snd (loop_body (mkState true [bytes "x"]) (ln "  ====  ")))
     = [bytes "x"]
  /\ strip (ln "  ====  ")
     ∉ output [ln "Changes in [1.0]"; ln "  ====  "; ln "x"; ln "  "].
Proof.
  assert (H : blank_or_separator (strip (ln "  ====  "))).
  { right. exists 3. vm_compute. reflexivity. }
  split; [exact H|].
  exact (blank_and_separator_never_printed (mkState true [bytes "x"])
           [ln "Changes in [1.0]"; ln "  ====  "; ln "x"; ln "  "]
           (ln "  ====  ") H).
Defined.

(** C7: the scan of a finite input ends, having read some first lines of it
    and no others. When it scans a header with the flag already set it
    stops there: the state is as it was before that header and every later
    line is left unread, whatever it is. That is the only way for it to
    stop with lines unread: a loop that did not break read them all, and a
    loop that broke did so on a header, scanned with the flag set. *)
Theorem scan_stops_only_at_second_header st lines :
  (exists scanned,
     lines = scanned ++ unread (for_loop st lines)
     /\ (broke (for_loop st lines) = false -> unread (for_loop st lines) = [])
     /\ (broke (for_loop st lines) = true ->
         exists pre raw,
           scanned = pre ++ [raw] /\ is_header raw = true
           /\ broke (for_loop st pre) = false
           /\ found_first_header (final (for_loop st pre)) = true
           /\ final (for_loop st lines) = final (for_loop st pre)))
  /\ (forall pre raw rest,
        lines = pre ++ raw :: rest ->
        broke (for_loop st pre) = false ->
        found_first_header (final (for_loop st pre)) = true ->
        is_header raw = true ->
        for_loop st lines = mkResult (final (for_loop st pre)) rest true).
Proof.
  split.
  - revert st. induction lines as [|raw lines IH]; intros st; simpl.
    + exists []. split; [reflexivity|]. split; [reflexivity | discriminate].
    + destruct (loop_body st raw) as [[|] st'] eqn:Hbody; simpl.
      * destruct (IH st') as (scanned & Heq & Hall & Hbrk).
        exists (raw :: scanned). split; [|split].
        -- simpl. f_equal. exact Heq.
        -- exact Hall.
        -- intros Hb.
           destruct (Hbrk Hb) as (pre & h & -> & Hh & Hnb & Hf & Hfin).
           exists (raw :: pre), h. simpl. rewrite Hbody. auto.
      * apply loop_body_break in Hbody as (Hh & Hf & ->).
        exists [raw]. split; [reflexivity|]. split; [discriminate|].
        intros _. exists [], raw. simpl. auto.
  - intros pre raw rest -> Hnb Hf Hh.
    rewrite for_loop_app by assumption. simpl.
    rewrite loop_body_header_again by assumption. reflexivity.
Qed.

(** C8: a run is a function of the lines alone. In whatever namespace the
    script starts, line 9 resets the flag, and the run appends [output] of
    the lines to the standard output; a second run on the same lines, in the
    namespace the first one left behind, appends the same lines again. *)
Theorem runs_print_the_same st lines :
  stdout (final (script st lines)) = stdout st ++ output lines
  /\ stdout (final (script (final (script st lines)) lines))
     = (stdout st ++ output lines) ++ output lines
  /\ forall flag,
       script (mkState flag (stdout st)) lines = script st lines.
Proof.
  split; [apply script_appends_output|]. split; [|reflexivity].
  rewrite !script_appends_output. reflexivity.
Qed.

(** C9: the output is a subsequence of the stripped input lines: every
    printed line is the stripped form of an input line of its own, no input
    line is printed twice, and the printed lines come in the order of the
    input. *)
Theorem output_is_subsequence lines :
  output lines `sublist_of` map strip lines.
Proof.
  unfold output, script.
  destruct (for_loop_appends (mkState false (stdout fresh)) lines)
    as (new & Heq & Hsub).
  rewrite Heq. exact Hsub.
Qed.

(** C10: a line of the file whose stripped form is [Changes in []], some
    text, a closing bracket and any trailing text is recognised as an entry
    header: the test of line 12 succeeds, and the loop sets the flag or, if
    it is set, breaks; the line is not printed. *)
Theorem header_with_trailing_text content raw text trailing st :
  raw ∈ readlines content ->
  strip raw = header_prefix ++ text ++ rbracket :: trailing ->
  is_header raw = true
  /\ loop_body st raw
     = if found_first_header st then (Break, st)
       else (Next, mkState true (stdout st)).
Proof.
  intros Hin Heq.
  assert (Hh : is_header raw = true).
  { apply is_header_line_iff; [eapply readlines_is_line; exact Hin | eauto]. }
  split; [exact Hh|].
  destruct (found_first_header st) eqn:Hf.
  - apply loop_body_header_again; assumption.
  - apply loop_body_header_first; assumption.
Qed.

Lemma header_with_trailing_text_witness :
  ln "Changes in [0.9.2] (2018-03-12) hotfix"
    ∈ readlines (ln "Changes in [0.9.2] (2018-03-12) hotfix" ++ ln "====")
  /\ strip (ln "Changes in [0.9.2] (2018-03-12) hotfix")
     = header_prefix ++ bytes "0.9.2" ++ rbracket :: bytes " (2018-03-12) hotfix"
  /\ is_header (ln "Changes in [0.9.2] (2018-03-12) hotfix") = true
  /\ loop_body (mkState true []) (ln "Changes in [0.9.2] (2018-03-12) hotfix")
     = (Break, mkState true []).
Proof.
  assert (Hin : ln "Changes in [0.9.2] (2018-03-12) hotfix"
    ∈ readlines (ln "Changes in [0.9.2] (2018-03-12) hotfix" ++ ln "====")).
  { vm_compute. apply list_elem_of_here. }
  assert (Heq : strip (ln "Changes in [0.9.2] (2018-03-12) hotfix")
     = header_prefix ++ bytes "0.9.2" ++ rbracket :: bytes " (2018-03-12) hotfix").
  { vm_compute. reflexivity. }
  split; [exact Hin|]. split; [exact Heq|].
  exact (header_with_trailing_text _ _ _ _ (mkState true []) Hin Heq).
Defined.

End Claims.

(** ** More on stripping *)

Section StripMore.

Implicit Types (s t core ws : str) (c : ascii).

Lemma lstrip_spaces ws s :
  Forall (fun c => isspace c = true) ws -> lstrip (ws ++ s) = lstrip s.
Proof.
  induction 1 as [|c ws Hc _ IH]; simpl; [reflexivity|].
  rewrite Hc. exact IH.
Qed.

Lemma lstrip_fixed s :
  (forall c t, s = c :: t -> isspace c = false) -> lstrip s = s.
Proof.
  destruct s as [|c t]; simpl; [reflexivity|].
  intros H. rewrite (H c t eq_refl). reflexivity.
Qed.

Lemma rstrip_spaces s ws :
  Forall (fun c => isspace c = true) ws -> rstrip (s ++ ws) = rstrip s.
Proof.
  intros H. unfold rstrip. rewrite reverse_app, lstrip_spaces; [reflexivity|].
  apply Forall_reverse. exact H.
Qed.

Lemma rstrip_fixed s :
  (forall t c, s = t ++ [c] -> isspace c = false) -> rstrip s = s.
Proof.
  intros H. unfold rstrip. rewrite lstrip_fixed; [apply reverse_involutive|].
  intros c t Heq. apply (H (reverse t) c).
  apply (f_equal reverse) in Heq.
  rewrite reverse_involutive, reverse_cons in Heq. exact Heq.
Qed.

Lemma strip_core_eq ws1 core ws2 :
  Forall (fun c => isspace c = true) ws1 ->
  Forall (fun c => isspace c = true) ws2 ->
  tight core ->
  strip (ws1 ++ core ++ ws2) = core.
Proof.
  intros H1 H2 [Hhead Hlast]. unfold strip. rewrite lstrip_spaces by assumption.
  destruct core as [|c t].
  - simpl. rewrite <- (app_nil_r ws2).
    rewrite lstrip_spaces by assumption. reflexivity.
  - rewrite lstrip_fixed.
    + rewrite rstrip_spaces by assumption. apply rstrip_fixed. exact Hlast.
    + simpl. intros c' t' [= <- _]. apply (Hhead c t). reflexivity.
Qed.

Lemma strip_is_tight s : tight (strip s).
Proof.
  split.
  - intros c t Heq. unfold strip in Heq.
    destruct (rstrip_split (lstrip s)) as (ws & Hs & _).
    rewrite Heq in Hs. simpl in Hs. eapply lstrip_head. exact Hs.
  - intros t c Heq. eapply strip_last. exact Heq.
Qed.

Lemma strip_strip s : strip (strip s) = strip s.
Proof.
  rewrite <- (app_nil_r (strip s)) at 1.
  apply (strip_core_eq [] (strip s) []); auto using strip_is_tight.
Qed.

(** X1: [strip] returns the core of the line: whatever whitespace is put
    before and after a text that neither begins nor ends with whitespace,
    stripping gives the text back, whitespace inside it included. *)
Theorem strip_returns_core ws1 core ws2 :
  Forall (fun c => isspace c = true) ws1 ->
  Forall (fun c => isspace c = true) ws2 ->
  tight core ->
  strip (ws1 ++ core ++ ws2) = core.
Proof. apply strip_core_eq. Qed.

Lemma strip_returns_core_witness :
  Forall (fun c => isspace c = true) (bytes "  ")
  /\ Forall (fun c => isspace c = true) [ascii_of_nat 9; ascii_of_nat 13; LF]
  /\ tight (bytes "Fixed bug Y.")
  /\ strip (bytes "  " ++ bytes "Fixed bug Y."
              ++ [ascii_of_nat 9; ascii_of_nat 13; LF])
     = bytes "Fixed bug Y.".
Proof.
  assert (H1 : Forall (fun c => isspace c = true) (bytes "  ")).
  { repeat constructor. }
  assert (H2 : Forall (fun c => isspace c = true)
                 [ascii_of_nat 9; ascii_of_nat 13; LF]).
  { repeat constructor. }
  assert (H3 : tight (bytes "Fixed bug Y.")).
  { assert (E : strip (bytes "Fixed bug Y.") = bytes "Fixed bug Y.")
      by (vm_compute; reflexivity).
    rewrite <- E. apply strip_is_tight. }
  split; [exact H1|]. split; [exact H2|]. split; [exact H3|].
  exact (strip_returns_core _ _ _ H1 H2 H3).
Defined.

(** X2: a stripped line neither begins nor ends with a whitespace
    character, and stripping it again changes nothing. *)
Theorem strip_is_tight_and_idempotent s :
  tight (strip s) /\ strip (strip s) = strip s.
Proof. split; [apply strip_is_tight | apply strip_strip]. Qed.

Lemma strip_nil_all_space s :
  strip s = [] <-> Forall (fun c => isspace c = true) s.
Proof.
  split.
  - intros H. destruct (strip_split s) as (ws1 & ws2 & Heq & H1 & H2).
    rewrite H in Heq. rewrite Heq. apply Forall_app. auto.
  - intros H. rewrite <- (app_nil_r s).
    apply (strip_core_eq s [] []); [assumption | constructor |].
    split; intros ? ? Heq; [discriminate|].
    destruct t; discriminate.
Qed.

(** X3: a line strips to the empty string exactly when all its characters
    are whitespace: these are the lines that [len(line) > 0] rejects. *)
Theorem strip_empty_iff_whitespace s :
  strip s = [] <-> Forall (fun c => isspace c = true) s.
Proof. apply strip_nil_all_space. Qed.

End StripMore.

(** ** More on the lines of a file *)

Section Lines.

Implicit Types (content cur text tail raw : str) (lines : list str).

Lemma concat_readlines_from content : forall cur,
  concat (readlines_from cur content) = reverse cur ++ content.
Proof.
  induction content as [|c t IH]; intros cur; simpl.
  - destruct cur as [|x cur']; simpl; [reflexivity|].
    rewrite !app_nil_r. reflexivity.
  - destruct (Ascii.eqb c LF); simpl.
    + rewrite IH, reverse_cons, <- app_assoc. reflexivity.
    + rewrite IH, reverse_cons, <- app_assoc. reflexivity.
Qed.

Lemma readlines_from_nonempty content : forall cur raw,
  raw ∈ readlines_from cur content -> raw <> [].
Proof.
  induction content as [|c t IH]; intros cur raw Hin; simpl in Hin.
  - destruct cur as [|x cur']; [inversion Hin|].
    apply list_elem_of_singleton in Hin. subst raw.
    rewrite reverse_cons. intros H. apply app_eq_nil in H as [_ H].
    discriminate.
  - destruct (Ascii.eqb c LF).
    + apply elem_of_cons in Hin as [-> | Hin]; [|eapply IH; exact Hin].
      rewrite reverse_cons. intros H. apply app_eq_nil in H as [_ H].
      discriminate.
    + eapply IH. exact Hin.
Qed.

(** X4: file iteration loses nothing and invents nothing: the lines, put
    end to end, are the content of the file; no line is empty, and a line
    break occurs in a line only as its last character. *)
Theorem readlines_partitions_content content :
  concat (readlines content) = content
  /\ Forall (fun raw => raw <> [] /\ is_line raw) (readlines content).
Proof.
  split.
  - unfold readlines. rewrite concat_readlines_from. reflexivity.
  - apply Forall_forall. intros raw Hin. split.
    + eapply readlines_from_nonempty. exact Hin.
    + eapply readlines_is_line. exact Hin.
Qed.

Lemma readlines_from_text text : forall cur rest,
  LF ∉ text ->
  readlines_from cur (text ++ rest) = readlines_from (reverse text ++ cur) rest.
Proof.
  induction text as [|c t IH]; intros cur rest Hno; simpl; [reflexivity|].
  apply not_elem_of_cons in Hno as [Hc Hno].
  assert (Hneq : Ascii.eqb c LF = false) by (apply Ascii.eqb_neq; congruence).
  rewrite Hneq, IH by assumption.
  rewrite reverse_cons, <- app_assoc. reflexivity.
Qed.

Lemma readlines_from_terminated raw rest :
  terminated raw ->
  readlines_from [] (raw ++ rest) = raw :: readlines_from [] rest.
Proof.
  intros (text & -> & Hno). rewrite <- app_assoc.
  rewrite readlines_from_text by assumption. simpl.
  rewrite app_nil_r, reverse_cons, reverse_involutive.
  reflexivity.
Qed.

Lemma readlines_from_tail tail :
  LF ∉ tail ->
  readlines_from [] tail = match tail with [] => [] | _ => [tail] end.
Proof.
  intros Hno. rewrite <- (app_nil_r tail) at 1.
  rewrite readlines_from_text by assumption. simpl. rewrite app_nil_r.
  destruct tail as [|c t]; [reflexivity|].
  destruct (reverse (c :: t)) as [|x r] eqn:Hr.
  - apply (f_equal reverse) in Hr. rewrite reverse_involutive in Hr.
    discriminate.
  - rewrite <- Hr, reverse_involutive. reflexivity.
Qed.

(** X5: a file written as lines that each end in their one line break,
    followed or not by a last line without line break, is read back as
    exactly those lines. *)
Theorem readlines_of_written_lines lines tail :
  Forall terminated lines ->
  LF ∉ tail ->
  readlines (concat lines ++ tail)
  = lines ++ match tail with [] => [] | _ => [tail] end.
Proof.
  intros Hlines Hno. unfold readlines.
  induction Hlines as [|raw lines Hraw _ IH]; simpl.
  - apply readlines_from_tail. exact Hno.
  - rewrite <- app_assoc, readlines_from_terminated by assumption.
    rewrite IH. reflexivity.
Qed.

Lemma readlines_of_written_lines_witness :
  Forall terminated [ln "Changes in [1.0]"; ln "fix"]
  /\ (LF ∉ bytes "end")
  /\ readlines (concat [ln "Changes in [1.0]"; ln "fix"] ++ bytes "end")
     = [ln "Changes in [1.0]"; ln "fix"] ++ [bytes "end"].
Proof.
  assert (H1 : Forall terminated [ln "Changes in [1.0]"; ln "fix"]).
  { repeat constructor.
    - exists (bytes "Changes in [1.0]"). split; [reflexivity|].
      apply (bool_decide_unpack _). vm_compute. exact I.
    - exists (bytes "fix"). split; [reflexivity|].
      apply (bool_decide_unpack _). vm_compute. exact I. }
  assert (H2 : LF ∉ bytes "end").
  { apply (bool_decide_unpack _). vm_compute. exact I. }
  split; [exact H1|]. split; [exact H2|].
  exact (readlines_of_written_lines _ _ H1 H2).
Defined.

End Lines.

(** ** More on the two patterns *)

Section Patterns.

Implicit Types (s : str).

(** X6: on any string, with line breaks inside or not, the header pattern
    matches exactly the strings that start with [Changes in []] and have a
    closing bracket after it with no line break in between; what comes
    after that bracket, and what a match not at the start would give, play
    no part. *)
Theorem header_pattern_language s :
  re_match header_re s = true <->
  exists text rest,
    s = header_prefix ++ text ++ rbracket :: rest /\ LF ∉ text.
Proof. apply header_match_iff. Qed.

(** X7: the separator pattern matches exactly the runs of one or more [=],
    alone or followed by one last line break; on a stripped line, where no
    line break is left at the end, it matches the runs of [=] only. *)
Theorem separator_pattern_language s :
  (re_match separator_re s = true <->
   exists n, s = replicate (S n) equals
          \/ s = replicate (S n) equals ++ [LF])
  /\ (re_match separator_re (strip s) = true <->
      exists n, strip s = replicate (S n) equals).
Proof. split; [apply separator_match_iff | apply separator_strip_iff]. Qed.

End Patterns.

(** ** More on the scan *)

Section Scan.

Implicit Types (st : state) (lines : list str) (raw line : str).

Lemma count_headers lines :
  length (List.filter is_header lines)
  = if existsb is_header lines
    then S (length (List.filter is_header (after_header lines)))
    else 0.
Proof.
  induction lines as [|raw lines IH]; simpl; [reflexivity|].
  destruct (is_header raw); simpl; [reflexivity | exact IH].
Qed.

(** The result of a run in closed form. *)
Lemma script_result st lines :
  script st lines
  = mkResult
      (mkState (existsb is_header lines) (stdout st ++ output lines))
      (after_header (after_header lines))
      (existsb is_header lines && existsb is_header (after_header lines)).
Proof.
  rewrite output_eq. unfold script, first_entry_body.
  rewrite for_loop_not_found by reflexivity. simpl.
  destruct (existsb is_header lines) eqn:Hex.
  - rewrite for_loop_found by reflexivity. simpl.
    rewrite app_assoc. reflexivity.
  - destruct (no_header_split lines Hex) as [-> ->].
    simpl. unfold body_of at 3. simpl. rewrite app_nil_r. reflexivity.
Qed.

Lemma for_loop_flag st lines :
  found_first_header (final (for_loop st lines))
  = found_first_header st || existsb is_header lines.
Proof.
  destruct (found_first_header st) eqn:Hf.
  - rewrite for_loop_found by assumption. reflexivity.
  - rewrite for_loop_not_found by assumption.
    destruct (existsb is_header lines); [|reflexivity].
    rewrite for_loop_found by reflexivity. reflexivity.
Qed.

(** X8: the flag is set once and never reset: after the loop, started in
    any state, it is set exactly when it was set before or some line read
    is a header; after a run of the script, exactly when the input has a
    header. *)
Theorem flag_is_set_by_first_header st lines :
  found_first_header (final (for_loop st lines))
  = found_first_header st || existsb is_header lines
  /\ found_first_header (final (script st lines)) = existsb is_header lines.
Proof.
  split; [apply for_loop_flag | rewrite script_result; reflexivity].
Qed.

(** X9: a run leaves its loop through [break] exactly when the input has
    two header lines or more; otherwise it reads the input to its end. *)
Theorem script_breaks_iff_two_headers st lines :
  broke (script st lines) = true
  <-> 2 <= length (List.filter is_header lines).
Proof.
  rewrite script_result. simpl.
  rewrite (count_headers lines).
  destruct (existsb is_header lines); simpl; [|split; [discriminate | lia]].
  rewrite (count_headers (after_header lines)).
  destruct (existsb is_header (after_header lines));
    split; intros; try discriminate; try reflexivity; lia.
Qed.

(** X10: the lines a run never reads are the lines after the second header
    line; with fewer than two headers every line is read. *)
Theorem script_leaves_unread st lines :
  unread (script st lines) = after_header (after_header lines)
  /\ (length (List.filter is_header lines) < 2 -> unread (script st lines) = []).
Proof.
  rewrite script_result. simpl. split; [reflexivity|].
  rewrite (count_headers lines).
  destruct (existsb is_header lines) eqn:Hex.
  - rewrite (count_headers (after_header lines)).
    destruct (existsb is_header (after_header lines)) eqn:Hex2; [lia|].
    intros _. apply (no_header_split _ Hex2).
  - intros _. destruct (no_header_split _ Hex) as [_ ->]. reflexivity.
Qed.

(** X11: what a run prints, for every input: the printable lines before the
    first header line, then the printable lines between the first header
    line and the second one or the end of the input, all stripped and in
    their order; with no header at all, every printable line. *)
Theorem output_closed_form lines :
  output lines
  = body_of (before_header lines)
    ++ body_of (before_header (after_header lines))
  /\ (existsb is_header lines = false -> output lines = body_of lines).
Proof.
  split; [apply output_eq|].
  intros Hex. rewrite output_eq. unfold first_entry_body.
  destruct (no_header_split _ Hex) as [-> ->].
  simpl. unfold body_of at 2. simpl. apply app_nil_r.
Qed.

Lemma body_of_blank lines :
  Forall (fun raw => blank_or_separator (strip raw)) lines ->
  body_of lines = [].
Proof.
  induction 1 as [|raw lines Hraw _ IH]; [reflexivity|].
  rewrite body_of_cons, IH, app_nil_r. unfold body_of. simpl.
  destruct (is_printed raw) eqn:Hp; [|reflexivity].
  exfalso. exact (is_printed_not_blank raw Hp Hraw).
Qed.

(** X12: on a changelog in which every line before the first header line is
    blank or a separator, the run prints the body of the first entry: the
    non-blank, non-separator lines strictly between the first header line
    and the second one, or the end of the input. *)
Theorem output_is_first_entry_body lines :
  Forall (fun raw => blank_or_separator (strip raw)) (before_header lines) ->
  output lines = first_entry_body lines.
Proof.
  intros H. apply output_without_preamble. apply body_of_blank. exact H.
Qed.

Lemma output_is_first_entry_body_witness :
  let lines := [ln ""; ln "Changes in [1.2.0]"; ln "===="; ln " Added X. ";
                ln "Changes in [1.1.0]"; ln "Older stuff."] in
  Forall (fun raw => blank_or_separator (strip raw)) (before_header lines)
  /\ output lines = first_entry_body lines.
Proof.
  intros lines.
  assert (H : Forall (fun raw => blank_or_separator (strip raw))
                (before_header lines)).
  { vm_compute. repeat constructor. }
  split; [exact H|].
  exact (output_is_first_entry_body lines H).
Defined.

Lemma is_printed_parts raw :
  is_printed raw = true ->
  re_match header_re (strip raw) = false
  /\ re_match separator_re (strip raw) = false
  /\ strip raw <> [].
Proof.
  unfold is_printed. intros H.
  apply andb_true_iff in H as [Hh H]. apply andb_true_iff in H as [Hs Hl].
  apply negb_true_iff in Hh, Hs. apply Nat.ltb_lt in Hl.
  repeat split; try assumption.
  intros Hnil. rewrite Hnil in Hl. simpl in Hl. lia.
Qed.

Lemma is_printed_strip raw : is_printed (strip raw) = is_printed raw.
Proof. unfold is_printed. rewrite strip_strip. reflexivity. Qed.

Lemma elem_of_output line lines :
  line ∈ output lines ->
  exists raw, is_printed raw = true /\ line = strip raw.
Proof.
  rewrite output_eq. unfold first_entry_body. rewrite <- body_of_app.
  intros Hin. apply elem_of_body_of in Hin as (raw & _ & Hp & Heq). eauto.
Qed.

(** X13: every printed line is a stripped line: it neither begins nor ends
    with whitespace, it is not empty, and it matches neither the header
    pattern nor the separator pattern. *)
Theorem printed_lines_are_body_lines lines line :
  line ∈ output lines ->
  strip line = line /\ line <> []
  /\ re_match header_re line = false
  /\ re_match separator_re line = false.
Proof.
  intros Hin. apply elem_of_output in Hin as (raw & Hp & ->).
  destruct (is_printed_parts raw Hp) as (Hh & Hs & Hne).
  split; [apply strip_strip | auto].
Qed.

Lemma printed_lines_are_body_lines_witness :
  bytes "Added X." ∈ output [ln "Changes in [1.2.0]"; ln "  Added X.  "]
  /\ strip (bytes "Added X.") = bytes "Added X."
  /\ bytes "Added X." <> []
  /\ re_match header_re (bytes "Added X.") = false
  /\ re_match separator_re (bytes "Added X.") = false.
Proof.
  assert (H : bytes "Added X."
              ∈ output [ln "Changes in [1.2.0]"; ln "  Added X.  "]).
  { vm_compute. apply list_elem_of_here. }
  split; [exact H|].
  exact (printed_lines_are_body_lines _ _ H).
Defined.

Lemma blank_is_no_header raw :
  blank_or_separator (strip raw) -> is_header raw = false.
Proof.
  intros Hblank. destruct (is_header raw) eqn:Hh; [|reflexivity].
  apply header_match_iff in Hh as (text & rest & Heq & _).
  rewrite Heq in Hblank. destruct Hblank as [H | [n H]]; discriminate.
Qed.

Lemma loop_body_blank st raw :
  blank_or_separator (strip raw) -> loop_body st raw = (Next, st).
Proof.
  intros Hblank. rewrite loop_body_other by (apply blank_is_no_header; assumption).
  rewrite (body_of_blank [raw]) by (constructor; [assumption | constructor]).
  rewrite app_nil_r. destruct st; reflexivity.
Qed.

Lemma for_loop_skip_blank raw l2 : forall l1 st,
  blank_or_separator (strip raw) ->
  final (for_loop st (l1 ++ raw :: l2)) = final (for_loop st (l1 ++ l2))
  /\ broke (for_loop st (l1 ++ raw :: l2)) = broke (for_loop st (l1 ++ l2)).
Proof.
  induction l1 as [|a l1 IH]; intros st Hblank; simpl.
  - rewrite loop_body_blank by assumption. auto.
  - destruct (loop_body st a) as [[|] st']; simpl; auto.
Qed.

(** X14: blank lines and separator lines are ignored wherever they stand:
    putting one in, or taking one out, anywhere in the input changes neither
    what is printed nor the flag nor whether the loop breaks. *)
Theorem blank_lines_do_not_matter st l1 raw l2 :
  blank_or_separator (strip raw) ->
  final (for_loop st (l1 ++ raw :: l2)) = final (for_loop st (l1 ++ l2))
  /\ broke (for_loop st (l1 ++ raw :: l2)) = broke (for_loop st (l1 ++ l2))
  /\ output (l1 ++ raw :: l2) = output (l1 ++ l2).
Proof.
  intros Hblank.
  destruct (for_loop_skip_blank raw l2 l1 st Hblank) as [Hfin Hbrk].
  split; [exact Hfin|]. split; [exact Hbrk|].
  unfold output, script.
  destruct (for_loop_skip_blank raw l2 l1 (mkState false (stdout fresh)) Hblank)
    as [-> _].
  reflexivity.
Qed.

Lemma blank_lines_do_not_matter_witness :
  blank_or_separator (strip (ln " == "))
  /\ final (for_loop fresh ([ln "Changes in [2.0]"] ++ ln " == " :: [ln "new"]))
     = final (for_loop fresh ([ln "Changes in [2.0]"] ++ [ln "new"]))
  /\ broke (for_loop fresh ([ln "Changes in [2.0]"] ++ ln " == " :: [ln "new"]))
     = broke (for_loop fresh ([ln "Changes in [2.0]"] ++ [ln "new"]))
  /\ output ([ln "Changes in [2.0]"] ++ ln " == " :: [ln "new"])
     = output ([ln "Changes in [2.0]"] ++ [ln "new"]).
Proof.
  assert (H : blank_or_separator (strip (ln " == "))).
  { right. exists 1. vm_compute. reflexivity. }
  split; [exact H|].
  exact (blank_lines_do_not_matter fresh [ln "Changes in [2.0]"] (ln " == ")
           [ln "new"] H).
Defined.

Lemma loop_body_strip st r1 r2 :
  strip r1 = strip r2 -> loop_body st r1 = loop_body st r2.
Proof. unfold loop_body. cbv zeta. intros ->. reflexivity. Qed.

Lemma for_loop_strip : forall l1 l2 st,
  map strip l1 = map strip l2 ->
  final (for_loop st l1) = final (for_loop st l2)
  /\ broke (for_loop st l1) = broke (for_loop st l2).
Proof.
  induction l1 as [|r1 l1 IH]; intros [|r2 l2] st Heq; simpl in Heq;
    try discriminate; simpl; [auto|].
  injection Heq as Hr Hl. rewrite (loop_body_strip st r1 r2 Hr).
  destruct (loop_body st r2) as [[|] st']; simpl; auto.
Qed.

(** X15: only the stripped lines matter: two inputs whose lines agree once
    stripped, such as a file with Unix and one with DOS line ends, or with
    and without indentation, give the same output. *)
Theorem output_depends_on_stripped_lines l1 l2 :
  map strip l1 = map strip l2 -> output l1 = output l2.
Proof.
  intros Heq. unfold output, script.
  destruct (for_loop_strip l1 l2 (mkState false (stdout fresh)) Heq) as [-> _].
  reflexivity.
Qed.

Lemma output_depends_on_stripped_lines_witness :
  let unix := [ln "Changes in [2.0]"; ln "new"] in
  let dos := [bytes "Changes in [2.0]" ++ [ascii_of_nat 13; LF];
              bytes "  new" ++ [ascii_of_nat 13; LF]] in
  map strip unix = map strip dos /\ output unix = output dos.
Proof.
  intros unix dos.
  assert (H : map strip unix = map strip dos) by (vm_compute; reflexivity).
  split; [exact H|].
  exact (output_depends_on_stripped_lines unix dos H).
Defined.

Lemma output_no_header lines :
  existsb is_header lines = false -> output lines = body_of lines.
Proof.
  intros Hex. rewrite output_eq. unfold first_entry_body.
  destruct (no_header_split _ Hex) as [-> ->].
  simpl. unfold body_of at 2. simpl. apply app_nil_r.
Qed.

Lemma output_of_printed lines :
  Forall (fun l => is_printed l = true /\ strip l = l) lines ->
  output lines = lines.
Proof.
  intros H. rewrite output_no_header.
  - induction H as [|l lines [Hp Hs] _ IH]; [reflexivity|].
    rewrite body_of_cons, IH. unfold body_of. simpl. rewrite Hp. simpl.
    rewrite Hs. reflexivity.
  - induction H as [|l lines [Hp _] _ IH]; [reflexivity|].
    simpl. rewrite (is_printed_not_header l Hp). exact IH.
Qed.

(** X16: the output is a fixed point of the script: run on the lines it
    printed, the script prints them again, unchanged. *)
Theorem output_of_output lines : output (output lines) = output lines.
Proof.
  apply output_of_printed. apply Forall_forall. intros line Hin.
  apply elem_of_output in Hin as (raw & Hp & ->).
  rewrite is_printed_strip, strip_strip. auto.
Qed.

Lemma for_loop_app_broke st pre rest :
  broke (for_loop st pre) = true ->
  final (for_loop st (pre ++ rest)) = final (for_loop st pre)
  /\ broke (for_loop st (pre ++ rest)) = true.
Proof.
  revert st. induction pre as [|raw pre IH]; intros st; simpl; [discriminate|].
  destruct (loop_body st raw) as [[|] st']; simpl; [apply IH | auto].
Qed.

(** X17: nothing from the second header line on has any effect: once the
    lines read so far hold a header, a further header line and all that
    follows it leave the output as it is. *)
Theorem output_ignores_later_entries pre raw rest :
  existsb is_header pre = true ->
  is_header raw = true ->
  output (pre ++ raw :: rest) = output pre.
Proof.
  intros Hex Hh. unfold output, script.
  set (st := mkState false (stdout fresh)).
  destruct (broke (for_loop st pre)) eqn:Hb.
  - destruct (for_loop_app_broke st pre (raw :: rest) Hb) as [-> _].
    reflexivity.
  - rewrite for_loop_app by assumption. simpl.
    rewrite loop_body_header_again; [reflexivity | assumption |].
    rewrite for_loop_flag, Hex. apply orb_true_r.
Qed.

Lemma output_ignores_later_entries_witness :
  existsb is_header [ln "Changes in [2.0]"; ln "new"] = true
  /\ is_header (ln "Changes in [1.0]") = true
  /\ output ([ln "Changes in [2.0]"; ln "new"]
             ++ ln "Changes in [1.0]" :: [ln "old"; ln "Changes in [0.9]"])
     = output [ln "Changes in [2.0]"; ln "new"].
Proof.
  assert (H1 : existsb is_header [ln "Changes in [2.0]"; ln "new"] = true)
    by (vm_compute; reflexivity).
  assert (H2 : is_header (ln "Changes in [1.0]") = true)
    by (vm_compute; reflexivity).
  split; [exact H1|]. split; [exact H2|].
  exact (output_ignores_later_entries _ _ _ H1 H2).
Defined.

Lemma output_sublist lines : output lines `sublist_of` map strip lines.
Proof.
  unfold output, script.
  destruct (for_loop_appends (mkState false (stdout fresh)) lines)
    as (new & Heq & Hsub).
  rewrite Heq. exact Hsub.
Qed.

(** X18: run on a file, the script prints lines without any line break in
    them, so that each printed line is one line of the standard output. *)
Theorem printed_lines_hold_no_line_break content line :
  line ∈ changelog_head content -> LF ∉ line.
Proof.
  unfold changelog_head. intros Hin.
  pose proof (elem_of_sublist _ _ _ Hin (output_sublist (readlines content)))
    as Hin'.
  apply list_elem_of_In, in_map_iff in Hin' as (raw & <- & Hraw).
  apply strip_line_no_LF. eapply readlines_is_line.
  apply list_elem_of_In. exact Hraw.
Qed.

Lemma printed_lines_hold_no_line_break_witness :
  bytes "new" ∈ changelog_head (ln "Changes in [2.0]" ++ ln " new ")
  /\ (LF ∉ bytes "new").
Proof.
  assert (H : bytes "new"
              ∈ changelog_head (ln "Changes in [2.0]" ++ ln " new ")).
  { vm_compute. apply list_elem_of_here. }
  split; [exact H|].
  exact (printed_lines_hold_no_line_break _ _ H).
Defined.

End Scan.
